(** * Verification of the MCPAgent FastAPI service (src/Composite Actions/MCPAgent/mcp.py)

    The service holds a module-level list of dicts [TLC_ENGINEERING] and
    exposes two routes:
    - [GET /api/quotes] ([get_quotes]) returns the list itself;
    - [GET /] ([devotional_home]) builds ["<li>{q['text']}</li>"] for each
      entry, joins them with [""] and interpolates the result into a fixed
      HTML/CSS f-string template.

    Python values are modelled by a small [pyval] type, dicts as association
    lists (insertion ordered, as Python dicts), and the exceptions the code
    can raise ([KeyError] on [q['text']]) by a [result] type.  Strings are
    the UTF-8 bytes of the Python strings. *)

From Stdlib Require Import String Ascii ZArith List Bool Lia.
From Stdlib Require Import DecimalString DecimalZ.
Import ListNotations.
Open Scope string_scope.

(** ** Python values and dicts *)
Module Py.

Inductive pyval : Type :=
| PyInt (z : Z)
| PyStr (s : string).

(** A dict literal, in insertion order. *)
Definition dict : Type := list (string * pyval).

Fixpoint dict_get (d : dict) (k : string) : option pyval :=
  match d with
  | [] => None
  | (k', v) :: d' => if String.eqb k k' then Some v else dict_get d' k
  end.

Inductive exc : Type :=
| KeyError (k : string)
| ValueError.

Inductive result (A : Type) : Type :=
| Ok (a : A)
| Err (e : exc).
Arguments Ok {A} a.
Arguments Err {A} e.

Definition bind {A B} (m : result A) (f : A -> result B) : result B :=
  match m with
  | Ok a => f a
  | Err e => Err e
  end.

Notation "x <- m ;; k" := (bind m (fun x => k))
  (at level 61, m at next level, right associativity).

(** [d[k]]: raises [KeyError] on a missing key. *)
Definition getitem (d : dict) (k : string) : result pyval :=
  match dict_get d k with
  | Some v => Ok v
  | None => Err (KeyError k)
  end.

(** Python (3.11 and later) refuses to convert an int to a decimal string
    when it has more than [sys.get_int_max_str_digits()] digits (default
    4300, sign not counted), raising [ValueError]. *)
Definition int_max_str_digits : Z := 4300.

(** [int.__str__] / [int.__repr__]. *)
Definition int_repr (z : Z) : result string :=
  if (10 ^ int_max_str_digits <=? Z.abs z)%Z then Err ValueError
  else Ok (NilZero.string_of_int (Z.to_int z)).

(** [str(v)], as used by f-string formatting.  A [PyStr] holds the UTF-8
    encoding of the Python string. *)
Definition py_str (v : pyval) : result string :=
  match v with
  | PyStr s => Ok s
  | PyInt z => int_repr z
  end.

(** A list comprehension whose element expression may raise: elements are
    evaluated left to right and the first exception propagates. *)
Fixpoint map_m {A B} (f : A -> result B) (l : list A) : result (list B) :=
  match l with
  | [] => Ok []
  | x :: l' =>
      y <- f x ;;
      ys <- map_m f l' ;;
      Ok (y :: ys)
  end.

(** The double-quote character. *)
Definition dq : string := String "034"%char EmptyString.

End Py.

Import Py.

(** ** Substring search on strings, used to state properties of pages *)
Fixpoint contains (sub s : string) : bool :=
  String.prefix sub s ||
  match s with
  | EmptyString => false
  | String _ s' => contains sub s'
  end.

Fixpoint count_occ_str (sub s : string) : nat :=
  (if String.prefix sub s then 1 else 0) +
  match s with
  | EmptyString => 0
  | String _ s' => count_occ_str sub s'
  end.

(** ** The module-level catalog (mcp.py lines 7-9) *)
Definition tlc_text : string :=
  "As an AI assistant dedicated to TLC Engineering Solutions, your core function is to ensure the precision, compliance, and professional integrity of all legal, contractual, and formal business documents associated with engineering and architecture services. You support document integrity through detailed analysis, clause extraction, and expert-level summarization while offering authoritative guidance grounded in established industry practices when documents are not provided. Core Responsibilities: 1. Document-Based Analysis (Primary Mode): When documents are provided, they serve as the exclusive source of truth. Your responsibilities include: A. Document Summarization: Generate clear, concise, and structured summaries of uploaded documents. Highlight core legal, regulatory, and professional service elements. Focus on information relevant to engineering and architecture, particularly in the context of contractual compliance, liability exposure, and regulatory standards. B. Key Clause Extraction: Identify and accurately extract essential provisions and clauses, especially those related to: Scope of Work, Liability and Indemnity, Insurance Requirements, Regulatory and Code Compliance, Payment Terms and Conditions. Emphasize clauses that materially affect: Contractual obligations and responsibilities, Professional and legal risk, Adherence to engineering codes, permitting standards, and industry-specific regulations. 2. Contextual and OpenAI-Enhanced Guidance (When No Document is Provided): When no document is uploaded, you may draw upon OpenAI's capabilities to provide legally-informed, industry-relevant guidance based on: Established practices in the engineering, construction, and architecture sectors, Widely accepted professional and regulatory standards, Best practices in contract management, liability mitigation, and project delivery. Key Deliverables in This Mode: Interpretive guidance on typical contractual structures and obligations, Clause drafting examples compliant with industry norms, Operational advice aligned with professional service firm responsibilities. Do not reference any unavailable documents or make assumptions about specific contract terms. All outputs must be generalized yet accurate, grounded in verifiable industry practice. Standards of Performance: All outputs must be: Legally Relevant – Reflect accurate legal principles applicable to engineering and architecture services Professionally Sound – Uphold industry norms, client obligations, and regulatory compliance Precise & Structured – Provide clearly organized content with no ambiguity Tone-Consistent – Maintain a formal, professional tone appropriate for contractual, legal, and business-critical communications. Supported Capabilities: In support of TLC Engineering Solutions operations, you may: Use OpenAI's tools to access up-to-date information relevant to engineering and architecture, Analyze uploaded documents as the definitive source when available, Provide authoritative clause extraction and commentary, Generate summaries or interpretations tailored to project managers, legal reviewers, or executive stakeholders.".

Definition TLC_ENGINEERING : list dict :=
  [ [("id", PyInt 1); ("text", PyStr tlc_text)] ].

(** ** The HTML template of [devotional_home] (mcp.py lines 29-152), split
    at the placeholder [{html_quotes}]; [{{] and [}}] stand for braces. *)
Definition template_head : string :=
  "
    <html>
        <head>
            <title>TLC Engineering Solutions - Document Analysis Platform</title>
            <link href=" ++
  dq ++
  "https://fonts.googleapis.com/css2?family=Poppins:wght@300;400;600;700&family=Roboto:wght@300;400;500;700&display=swap" ++
  dq ++
  " rel=" ++
  dq ++
  "stylesheet" ++
  dq ++
  ">
            <style>
                * {
                    margin: 0;
                    padding: 0;
                    box-sizing: border-box;
                }
                body {
                    background: linear-gradient(135deg, #0f2027 0%, #203a43 50%, #2c5364 100%);
                    font-family: 'Roboto', sans-serif;
                    color: #333;
                    line-height: 1.6;
                    min-height: 100vh;
                }
                header {
                    background: linear-gradient(90deg, #1a3a52 0%, #2c5364 100%);
                    padding: 40px 20px;
                    text-align: center;
                    box-shadow: 0 8px 32px rgba(0, 0, 0, 0.3);
                    border-bottom: 3px solid #00d4ff;
                }
                .logo {
                    max-height: 80px;
                    width: auto;
                    margin-bottom: 20px;
                    filter: drop-shadow(0 2px 8px rgba(0, 212, 255, 0.3));
                }
                h1 {
                    font-family: 'Poppins', sans-serif;
                    font-size: 52px;
                    color: #ffffff;
                    font-weight: 700;
                    letter-spacing: 1.5px;
                    text-transform: uppercase;
                    margin-bottom: 10px;
                }
                .tagline {
                    font-size: 16px;
                    color: #00d4ff;
                    font-weight: 300;
                    letter-spacing: 2px;
                }
                .container {
                    max-width: 1000px;
                    margin: 50px auto;
                    padding: 0 20px;
                }
                .card {
                    background: #ffffff;
                    border-radius: 8px;
                    padding: 40px;
                    box-shadow: 0 12px 48px rgba(0, 0, 0, 0.2);
                    border-top: 4px solid #00d4ff;
                    transition: transform 0.3s ease, box-shadow 0.3s ease;
                }
                .card:hover {
                    transform: translateY(-5px);
                    box-shadow: 0 16px 56px rgba(0, 212, 255, 0.15);
                }
                h2 {
                    font-family: 'Poppins', sans-serif;
                    font-size: 32px;
                    color: #1a3a52;
                    margin-bottom: 30px;
                    font-weight: 600;
                    border-bottom: 2px solid #e0e0e0;
                    padding-bottom: 15px;
                    background: linear-gradient(135deg, #1a3a52 0%, #00d4ff 100%);
                    -webkit-background-clip: text;
                    -webkit-text-fill-color: transparent;
                    background-clip: text;
                    letter-spacing: 1px;
                }
                ul {
                    list-style: none;
                    padding: 0;
                }
                li {
                    margin: 20px 0;
                    padding: 15px 20px;
                    background: #f8f9fa;
                    border-left: 4px solid #00d4ff;
                    border-radius: 4px;
                    font-size: 15px;
                    line-height: 1.8;
                    color: #333;
                    transition: background 0.3s ease;
                }
                li:hover {
                    background: #e3f2fd;
                }
                footer {
                    text-align: center;
                    padding: 30px;
                    color: #888;
                    font-size: 12px;
                    margin-top: 50px;
                }
            </style>
        </head>
        <body>
            <header>
                <img src=" ++
  dq ++
  "https://tlcaidocstorage.blob.core.windows.net/assets/TLC logo.jpg" ++
  dq ++
  " alt=" ++
  dq ++
  "TLC Logo" ++
  dq ++
  " class=" ++
  dq ++
  "logo" ++
  dq ++
  ">
                <h1>TLC Engineering</h1>
                <div class=" ++
  dq ++
  "tagline" ++
  dq ++
  ">Document Analysis & Compliance Platform</div>
            </header>
            <div class=" ++
  dq ++
  "container" ++
  dq ++
  ">
                <div class=" ++
  dq ++
  "card" ++
  dq ++
  ">
                    <h2>About TLC Engineering</h2>
                    <ul>
                        ".

Definition template_tail : string :=
  "
                    </ul>
                </div>
            </div>
            <footer>
                <p>&copy; 2025 TLC Engineering Solutions. All rights reserved. | Powered by Advanced Document Analysis AI</p>
            </footer>
        </body>
    </html>
    ".

(** ** The route handlers.  The module-level list [TLC_ENGINEERING] they
    read is passed explicitly as [tlc]. *)

(** [@app.get("/api/quotes") def get_quotes(): return TLC_ENGINEERING] *)
Definition get_quotes (tlc : list dict) : result (list dict) := Ok tlc.

(** [f"<li>{q['text']}</li>"] *)
Definition li_of (q : dict) : result string :=
  t <- getitem q "text" ;;
  ts <- py_str t ;;
  Ok ("<li>" ++ ts ++ "</li>").

(** [html_quotes = "".join([f"<li>{q['text']}</li>" for q in TLC_ENGINEERING])] *)
Definition html_quotes (tlc : list dict) : result string :=
  items <- map_m li_of tlc ;;
  Ok (String.concat EmptyString items).

(** [@app.get("/", response_class=HTMLResponse) def devotional_home(): ...] *)
Definition devotional_home (tlc : list dict) : result string :=
  hq <- html_quotes tlc ;;
  Ok (template_head ++ hq ++ template_tail).

(** ** FastAPI's JSON rendering of the data route's return value:
    [jsonable_encoder] leaves lists, dicts, strs and ints as they are, and
    [JSONResponse.render] calls [json.dumps(content, ensure_ascii=False,
    allow_nan=False, indent=None, separators=(",", ":"))]. *)
Module Json.

Definition backslash : string := String "092"%char EmptyString.

Definition hex_digit (n : nat) : string :=
  String (ascii_of_nat (if Nat.ltb n 10 then 48 + n else 87 + n)) EmptyString.

(** One character of [json.encoder.py_encode_basestring]: the entries of
    [ESCAPE_DCT], [\u00XX] for the other control characters, the
    character itself otherwise. *)
Definition escape_char (c : ascii) : string :=
  let n := nat_of_ascii c in
  match n with
  | 34 => backslash ++ dq
  | 92 => backslash ++ backslash
  | 8 => backslash ++ "b"
  | 12 => backslash ++ "f"
  | 10 => backslash ++ "n"
  | 13 => backslash ++ "r"
  | 9 => backslash ++ "t"
  | _ => if Nat.ltb n 32
         then backslash ++ "u00" ++ hex_digit (n / 16) ++ hex_digit (n mod 16)
         else String c EmptyString
  end.

Fixpoint escape (s : string) : string :=
  match s with
  | EmptyString => EmptyString
  | String c s' => escape_char c ++ escape s'
  end.

Definition encode_str (s : string) : string := dq ++ escape s ++ dq.

Definition encode_value (v : pyval) : result string :=
  match v with
  | PyStr s => Ok (encode_str s)
  | PyInt z => int_repr z
  end.

Definition encode_item (kv : string * pyval) : result string :=
  vs <- encode_value (snd kv) ;;
  Ok (encode_str (fst kv) ++ ":" ++ vs).

Definition encode_dict (d : dict) : result string :=
  items <- map_m encode_item d ;;
  Ok ("{" ++ String.concat "," items ++ "}").

Definition dumps (l : list dict) : result string :=
  items <- map_m encode_dict l ;;
  Ok ("[" ++ String.concat "," items ++ "]").

End Json.

(** ** The running process: the only state is the module-level catalog.
    A request is dispatched to its route; an exception escaping a handler,
    or raised while rendering its return value, becomes a server-error
    (500) response. *)
Module Server.

Record server : Type := mk_server { tlc_engineering : list dict }.

Inductive route : Type :=
| ApiQuotes   (* GET /api/quotes *)
| Home.       (* GET / *)

Inductive response : Type :=
| JSONResponse (body : string)
| HTMLResponse (body : string)
| ServerError (e : exc).

Definition respond {A} (wrap : A -> response) (r : result A) : response :=
  match r with
  | Ok a => wrap a
  | Err e => ServerError e
  end.

Definition handle (r : route) (s : server) : response * server :=
  match r with
  | ApiQuotes =>
      (respond JSONResponse (l <- get_quotes (tlc_engineering s) ;; Json.dumps l), s)
  | Home => (respond HTMLResponse (devotional_home (tlc_engineering s)), s)
  end.

(** Serving a sequence of requests one after the other. *)
Fixpoint run (rs : list route) (s : server) : list response * server :=
  match rs with
  | [] => ([], s)
  | r :: rs' =>
      let (resp, s1) := handle r s in
      let (resps, s2) := run rs' s1 in
      (resp :: resps, s2)
  end.

End Server.

(** ** Field accessors used in the statements *)
Definition id_of (d : dict) : option pyval := dict_get d "id".
Definition text_of (d : dict) : option pyval := dict_get d "text".


(** An entry [GET /] can render: it has a ["text"] key, and an integer text
    is short enough for [str]. *)
Definition text_renders (d : dict) : Prop :=
  exists v, text_of d = Some v /\
    forall z, v = PyInt z -> (Z.abs z < 10 ^ int_max_str_digits)%Z.

(** The list-item fragment an entry with text [t] is expected to render to. *)
Definition li_fragment (t : string) : string := "<li>" ++ t ++ "</li>".

Definition hello_catalog : list dict :=
  [ [("id", PyInt 1); ("text", PyStr "Hello <b>world</b>")] ].

Definition escaped_hello : string := "Hello &lt;b&gt;world&lt;/b&gt;".

Definition class_card : string := "class=" ++ dq ++ "card" ++ dq.

Example html_quotes_hello :
  html_quotes hello_catalog = Ok "<li>Hello <b>world</b></li>".
Proof. reflexivity. Qed.

Example li_missing_text :
  devotional_home [ [("id", PyInt 1)] ] = Err (KeyError "text").
Proof. reflexivity. Qed.

Example li_int_text :
  html_quotes [ [("text", PyInt (-42))] ] = Ok "<li>-42</li>".
Proof. vm_compute. reflexivity. Qed.

Example li_huge_int_text :
  html_quotes [ [("text", PyInt (10 ^ 4300))] ] = Err ValueError.
Proof. vm_compute. reflexivity. Qed.

Example dumps_hello :
  Json.dumps hello_catalog =
  Ok ("[{" ++ dq ++ "id" ++ dq ++ ":1," ++ dq ++ "text" ++ dq ++ ":" ++ dq ++
      "Hello <b>world</b>" ++ dq ++ "}]").
Proof. vm_compute. reflexivity. Qed.

Example dumps_escapes :
  Json.dumps [ [("text", PyStr ("a" ++ dq ++ String "010"%char (String "001"%char EmptyString)))] ] =
  Ok ("[{" ++ dq ++ "text" ++ dq ++ ":" ++ dq ++ "a" ++ Json.backslash ++ dq ++
      Json.backslash ++ "n" ++ Json.backslash ++ "u0001" ++ dq ++ "}]").
Proof. vm_compute. reflexivity. Qed.

Example dumps_empty : Json.dumps [] = Ok "[]".
Proof. reflexivity. Qed.

Example head_checks :
  (contains "<html>" template_head, contains "<header>" template_head,
   count_occ_str class_card template_head, count_occ_str class_card template_tail,
   contains "<footer>" template_tail, contains "</html>" template_tail,
   count_occ_str "<li>" (template_head ++ template_tail))
  = (true, true, 1, 0, true, true, 0).
Proof. vm_compute. reflexivity. Qed.

(** ** Lemmas on strings *)

Lemma append_empty_r (s : string) : s ++ EmptyString = s.
Proof. induction s as [|a s IH]; simpl; [reflexivity | now rewrite IH]. Qed.

Lemma concat_empty_cons (x : string) (l : list string) :
  String.concat EmptyString (x :: l) = x ++ String.concat EmptyString l.
Proof.
  destruct l as [|y l]; simpl.
  - now rewrite append_empty_r.
  - reflexivity.
Qed.

Lemma prefix_self_app (s t : string) : String.prefix s (s ++ t) = true.
Proof.
  induction s as [|a s IH]; simpl; [now destruct t|].
  destruct (ascii_dec a a); [exact IH | congruence].
Qed.

Lemma prefix_app_r (s u t : string) :
  String.prefix s u = true -> String.prefix s (u ++ t) = true.
Proof.
  revert s; induction u as [|b u IH]; intros [|a s] H; simpl in *;
    try discriminate; try (now destruct t); try reflexivity.
  destruct (ascii_dec a b); [now apply IH | discriminate].
Qed.

Lemma contains_of_prefix (sub s : string) :
  String.prefix sub s = true -> contains sub s = true.
Proof. intros H; destruct s; cbn [contains]; now rewrite H. Qed.

Lemma contains_app_l (sub u t : string) :
  contains sub u = true -> contains sub (u ++ t) = true.
Proof.
  induction u as [|a u IH]; intros H; simpl in *.
  - rewrite orb_false_r in H. destruct sub; [|discriminate].
    apply contains_of_prefix; now destruct t.
  - apply orb_true_iff in H as [H|H]; apply orb_true_iff.
    + left. exact (prefix_app_r sub (String a u) t H).
    + right. now apply IH.
Qed.

Lemma contains_app_r (sub u t : string) :
  contains sub t = true -> contains sub (u ++ t) = true.
Proof.
  induction u as [|a u IH]; intros H; simpl; [exact H|].
  rewrite (IH H). apply orb_true_r.
Qed.

Lemma contains_self_app (sub t : string) : contains sub (sub ++ t) = true.
Proof. apply contains_of_prefix, prefix_self_app. Qed.

Lemma contains_concat (x : string) (l : list string) :
  In x l -> contains x (String.concat EmptyString l) = true.
Proof.
  induction l as [|y l IH]; [contradiction|].
  rewrite concat_empty_cons. intros [<-|H].
  - apply contains_self_app.
  - apply contains_app_r, IH, H.
Qed.

(** ** Lemmas on [map_m] *)

Lemma map_m_ok {A B} (f : A -> result B) (l : list A) (ys : list B) :
  map_m f l = Ok ys -> Forall2 (fun x y => f x = Ok y) l ys.
Proof.
  revert ys; induction l as [|x l IH]; intros ys H; simpl in H.
  - injection H as <-. constructor.
  - destruct (f x) as [y|e] eqn:Ef; simpl in H; [|discriminate].
    destruct (map_m f l) as [ys'|e] eqn:Em; simpl in H; [|discriminate].
    injection H as <-. constructor; auto.
Qed.

Lemma map_m_total {A B} (f : A -> result B) (l : list A) :
  Forall (fun x => exists y, f x = Ok y) l -> exists ys, map_m f l = Ok ys.
Proof.
  induction 1 as [|x l [y Hy] _ [ys Hys]]; simpl; [now exists []|].
  rewrite Hy; simpl; rewrite Hys; simpl. now exists (y :: ys).
Qed.

Lemma map_m_ext {A A' B} (f : A -> result B) (g : A' -> result B) l1 l2 :
  Forall2 (fun x y => f x = g y) l1 l2 -> map_m f l1 = map_m g l2.
Proof.
  induction 1 as [|x y l1 l2 Hxy _ IH]; simpl; [reflexivity|].
  now rewrite Hxy, IH.
Qed.

Lemma map_m_map {A B C} (f : A -> result B) (h : C -> B) l (cs : list C) :
  Forall2 (fun x c => f x = Ok (h c)) l cs -> map_m f l = Ok (map h cs).
Proof.
  induction 1 as [|x c l cs Hx _ IH]; simpl; [reflexivity|].
  now rewrite Hx; simpl; rewrite IH.
Qed.

Lemma Forall2_In_l {A B} (R : A -> B -> Prop) l1 l2 x :
  Forall2 R l1 l2 -> In x l1 -> exists y, In y l2 /\ R x y.
Proof.
  induction 1 as [|a b l1 l2 Hab _ IH]; simpl; [contradiction|].
  intros [<-|Hin].
  - exists b; auto.
  - destruct (IH Hin) as [y [Hy HR]]; exists y; auto.
Qed.

Lemma Forall2_map_eq {A B} (h : A -> B) (l1 l2 : list A) :
  map h l1 = map h l2 -> Forall2 (fun x y => h x = h y) l1 l2.
Proof.
  revert l2; induction l1 as [|x l1 IH]; intros [|y l2] H; simpl in H;
    try discriminate; constructor; injection H; auto.
Qed.

Lemma Forall2_map_r {A B C} (h : A -> B) (g : C -> B) (l : list A) (cs : list C) :
  map h l = map g cs -> Forall2 (fun x c => h x = g c) l cs.
Proof.
  revert cs; induction l as [|x l IH]; intros [|c cs] H; simpl in H;
    try discriminate; constructor; injection H; auto.
Qed.

(** [li_of] reads only the ["text"] field of an entry. *)
Lemma li_of_text (d : dict) :
  li_of d = match text_of d with
            | Some v => ts <- py_str v ;; Ok ("<li>" ++ ts ++ "</li>")
            | None => Err (KeyError "text")
            end.
Proof. unfold li_of, getitem, text_of. now destruct (dict_get d "text"). Qed.

(** Serving never touches the state, and every response is the one the
    route gives in the initial state. *)
Lemma handle_state (r : Server.route) (s : Server.server) :
  Server.handle r s = (fst (Server.handle r s), s).
Proof. now destruct r. Qed.

Lemma run_spec (rs : list Server.route) (s : Server.server) :
  Server.run rs s = (map (fun r => fst (Server.handle r s)) rs, s).
Proof.
  induction rs as [|r rs IH]; simpl; [reflexivity|].
  rewrite handle_state, IH. reflexivity.
Qed.

Lemma li_of_string (d : dict) (t : string) :
  text_of d = Some (PyStr t) -> li_of d = Ok (li_fragment t).
Proof. intros H; rewrite li_of_text, H; reflexivity. Qed.

Lemma html_quotes_texts (cat : list dict) (texts : list string) :
  map text_of cat = map (fun t => Some (PyStr t)) texts ->
  html_quotes cat = Ok (String.concat EmptyString (map li_fragment texts)).
Proof.
  intros H. unfold html_quotes.
  rewrite (map_m_map li_of li_fragment cat texts); [reflexivity|].
  apply Forall2_map_r in H.
  induction H as [|d t cat texts Hd _ IH]; constructor; auto.
  now apply li_of_string.
Qed.

(** ** Claims *)

(** C1: for every catalog, [GET /api/quotes] returns a sequence of the
    catalog's length whose entries have the catalog's [id] and [text]
    fields, pairwise and in the same order. *)
Theorem get_quotes_matches_catalog (cat : list dict) :
  exists out, get_quotes cat = Ok out /\ length out = length cat /\
  Forall2 (fun o c => id_of o = id_of c /\ text_of o = text_of c) out cat.
Proof.
  exists cat. split; [reflexivity|]. split; [reflexivity|].
  induction cat as [|c cat IH]; constructor; auto.
Qed.

(** C2 (as stated, refuted): for the catalog [[{id: 1, text: "Hello
    <b>world</b>"}]] the page of [GET /] does not contain the escaped
    fragment [Hello &lt;b&gt;world&lt;/b&gt;]: the text is interpolated
    raw, and the page does contain the raw [<b>] tag. *)
Lemma devotional_home_not_escaped :
  ~ (forall page, devotional_home hello_catalog = Ok page ->
       contains escaped_hello page = true /\ contains "<b>" page = false).
Proof.
  intros H.
  destruct (H (template_head ++ "<li>Hello <b>world</b></li>" ++ template_tail))
    as [Hesc _].
  - vm_compute. reflexivity.
  - vm_compute in Hesc. discriminate.
Qed.

(** C2 (amended): [GET /] embeds each entry's text verbatim, without
    escaping: whenever the page is produced, it contains
    ["<li>" ++ t ++ "</li>"] for the text [t] of every entry.  In particular
    the page for [[{id: 1, text: "Hello <b>world</b>"}]] contains the raw
    item [<li>Hello <b>world</b></li>], hence a raw [<b>] tag, and does not
    contain the escaped fragment [Hello &lt;b&gt;world&lt;/b&gt;]. *)
Theorem devotional_home_embeds_raw_text :
  (forall (cat : list dict) (page : string) (d : dict) (t : string),
     devotional_home cat = Ok page -> In d cat -> text_of d = Some (PyStr t) ->
     contains (li_fragment t) page = true) /\
  (exists page, devotional_home hello_catalog = Ok page /\
     contains (li_fragment "Hello <b>world</b>") page = true /\
     contains "<b>" page = true /\
     contains escaped_hello page = false).
Proof.
  assert (Hraw : forall (cat : list dict) (page : string) (d : dict) (t : string),
     devotional_home cat = Ok page -> In d cat -> text_of d = Some (PyStr t) ->
     contains (li_fragment t) page = true).
  { intros cat page d t Hpage Hin Ht. unfold devotional_home, html_quotes in Hpage.
    destruct (map_m li_of cat) as [items|e] eqn:Hm; simpl in Hpage; [|discriminate].
    injection Hpage as <-.
    apply map_m_ok in Hm.
    destruct (Forall2_In_l _ _ _ _ Hm Hin) as [y [Hy Hli]].
    rewrite (li_of_string d t Ht) in Hli. injection Hli as <-.
    apply (contains_app_r _ template_head), contains_app_l, contains_concat, Hy. }
  split; [exact Hraw|].
  exists (template_head ++ "<li>Hello <b>world</b></li>" ++ template_tail).
  split; [vm_compute; reflexivity|].
  split; [|vm_compute; split; reflexivity].
  apply (Hraw hello_catalog _ [("id", PyInt 1); ("text", PyStr "Hello <b>world</b>")]).
  - vm_compute. reflexivity.
  - simpl. left. reflexivity.
  - reflexivity.
Qed.

Lemma devotional_home_embeds_raw_text_witness :
  contains (li_fragment "Hello <b>world</b>")
    (template_head ++ "<li>Hello <b>world</b></li>" ++ template_tail) = true.
Proof.
  apply (proj1 devotional_home_embeds_raw_text hello_catalog _
           [("id", PyInt 1); ("text", PyStr "Hello <b>world</b>")]).
  - vm_compute. reflexivity.
  - simpl. left. reflexivity.
  - reflexivity.
Defined.

(** C3: for a catalog whose entries have string texts [texts], [GET /]
    returns the fixed template head, the list items [<li>t</li>]
    concatenated in catalog order, and the fixed template tail.  The head
    opens the document ([<html>]), holds the title, the header with its
    [<h1>] title block, exactly one content card and the opening [<ul>];
    the tail closes the list, holds the footer and closes the document. *)
Theorem devotional_home_template (cat : list dict) (texts : list string) :
  map text_of cat = map (fun t => Some (PyStr t)) texts ->
  devotional_home cat =
    Ok (template_head ++ String.concat EmptyString (map li_fragment texts)
                      ++ template_tail) /\
  contains "<html>" template_head = true /\
  contains "<title>" template_head = true /\
  contains "<header>" template_head = true /\
  contains "<h1>" template_head = true /\
  count_occ_str class_card template_head = 1 /\
  count_occ_str class_card template_tail = 0 /\
  contains "<ul>" template_head = true /\
  contains "</ul>" template_tail = true /\
  contains "<footer>" template_tail = true /\
  contains "</html>" template_tail = true.
Proof.
  intros H. split.
  - unfold devotional_home. now rewrite (html_quotes_texts cat texts H).
  - vm_compute. repeat split.
Qed.

Lemma devotional_home_template_witness :
  devotional_home TLC_ENGINEERING =
    Ok (template_head ++ String.concat EmptyString (map li_fragment [tlc_text])
                      ++ template_tail).
Proof.
  apply (devotional_home_template TLC_ENGINEERING [tlc_text]).
  reflexivity.
Defined.

(** C4: for the empty catalog, [GET /api/quotes] returns the empty list
    and [GET /] returns the template with no list item: one [<ul>] ...
    [</ul>] list inside the single content card, and no [<li>]. *)
Theorem empty_catalog_routes :
  get_quotes [] = Ok [] /\
  exists page, devotional_home [] = Ok page /\
    page = template_head ++ template_tail /\
    count_occ_str "<li>" page = 0 /\
    count_occ_str "<ul>" page = 1 /\
    count_occ_str "</ul>" page = 1 /\
    count_occ_str class_card page = 1 /\
    contains "<footer>" page = true /\
    contains "</html>" page = true.
Proof.
  split; [reflexivity|].
  exists (template_head ++ template_tail).
  split; [reflexivity|]. split; [reflexivity|].
  vm_compute. repeat split.
Qed.

(** C5: when the catalog's ids are pairwise distinct, the ids returned by
    [GET /api/quotes] are the catalog's ids, element by element, and are
    pairwise distinct. *)
Theorem get_quotes_ids_roundtrip (cat : list dict) :
  NoDup (map id_of cat) ->
  exists out, get_quotes cat = Ok out /\
    map id_of out = map id_of cat /\ NoDup (map id_of out).
Proof. intros H. exists cat. auto. Qed.

Lemma get_quotes_ids_roundtrip_witness :
  exists out, get_quotes TLC_ENGINEERING = Ok out /\
    map id_of out = map id_of TLC_ENGINEERING /\ NoDup (map id_of out).
Proof.
  apply get_quotes_ids_roundtrip.
  simpl. constructor; [simpl; tauto | constructor].
Defined.

(** C6: both routes are deterministic and idempotent: in any sequence of
    requests served one after the other, two requests to the same route
    get identical responses. *)
Theorem routes_idempotent (s : Server.server) (rs : list Server.route)
  (i j : nat) (r : Server.route) :
  nth_error rs i = Some r -> nth_error rs j = Some r ->
  nth_error (fst (Server.run rs s)) i = nth_error (fst (Server.run rs s)) j.
Proof.
  intros Hi Hj. rewrite run_spec. simpl.
  now rewrite !nth_error_map, Hi, Hj.
Qed.

Lemma routes_idempotent_witness :
  nth_error (fst (Server.run [Server.Home; Server.ApiQuotes; Server.Home]
                    (Server.mk_server TLC_ENGINEERING))) 0 =
  nth_error (fst (Server.run [Server.Home; Server.ApiQuotes; Server.Home]
                    (Server.mk_server TLC_ENGINEERING))) 2.
Proof. apply (routes_idempotent _ _ 0 2 Server.Home); reflexivity. Defined.

(** C7: neither route changes the catalog: after one request, or any
    sequence of requests, the server state (the catalog) is the one
    before. *)
Theorem routes_preserve_catalog (s : Server.server) :
  (forall r, snd (Server.handle r s) = s /\
             Server.tlc_engineering (snd (Server.handle r s)) =
             Server.tlc_engineering s) /\
  (forall rs, snd (Server.run rs s) = s).
Proof.
  split.
  - intros r. now rewrite handle_state.
  - intros rs. now rewrite run_spec.
Qed.

(** C8: the catalog literal of the program has positive integer ids,
    pairwise distinct, and non-empty string texts. *)
Theorem TLC_ENGINEERING_invariants :
  Forall (fun d => exists i, id_of d = Some (PyInt i) /\ (0 < i)%Z)
    TLC_ENGINEERING /\
  NoDup (map id_of TLC_ENGINEERING) /\
  Forall (fun d => exists t, text_of d = Some (PyStr t) /\ t <> EmptyString)
    TLC_ENGINEERING.
Proof.
  split; [|split].
  - constructor; [|constructor]. exists 1%Z. split; [reflexivity | lia].
  - constructor; [simpl; tauto | constructor].
  - constructor; [|constructor]. exists tlc_text. split; [reflexivity|].
    unfold tlc_text. discriminate.
Qed.



(** C10: the page of [GET /] depends only on the entries' texts, in order:
    two catalogs with the same sequence of ["text"] fields (whatever their
    ids) give the same page. *)
Theorem devotional_home_depends_on_texts_only (c1 c2 : list dict) :
  map text_of c1 = map text_of c2 -> devotional_home c1 = devotional_home c2.
Proof.
  intros H. unfold devotional_home, html_quotes.
  rewrite (map_m_ext li_of li_of c1 c2); [reflexivity|].
  apply Forall2_map_eq in H.
  eapply Forall2_impl; [|exact H].
  intros d1 d2 Hd. now rewrite !li_of_text, Hd.
Qed.

Lemma devotional_home_depends_on_texts_only_witness :
  devotional_home TLC_ENGINEERING =
  devotional_home [ [("id", PyInt 7); ("text", PyStr tlc_text)] ].
Proof. apply devotional_home_depends_on_texts_only. reflexivity. Defined.

(** ** Further properties of the handlers *)

Lemma append_assoc_str (a b c : string) : (a ++ b) ++ c = a ++ (b ++ c).
Proof. induction a as [|x a IH]; simpl; [reflexivity | now rewrite IH]. Qed.

Lemma length_append_str (a b : string) :
  String.length (a ++ b) = String.length a + String.length b.
Proof. induction a as [|x a IH]; simpl; [reflexivity | now rewrite IH]. Qed.

Lemma concat_empty_app (l1 l2 : list string) :
  String.concat EmptyString (l1 ++ l2) =
  String.concat EmptyString l1 ++ String.concat EmptyString l2.
Proof.
  induction l1 as [|x l1 IH]; [reflexivity|].
  rewrite <- app_comm_cons, !concat_empty_cons, IH, append_assoc_str.
  reflexivity.
Qed.

Lemma map_m_app {A B} (f : A -> result B) (l1 l2 : list A) ys1 ys2 :
  map_m f l1 = Ok ys1 -> map_m f l2 = Ok ys2 ->
  map_m f (l1 ++ l2)%list = Ok (ys1 ++ ys2)%list.
Proof.
  intros H1 H2. revert ys1 H1.
  induction l1 as [|x l1 IH]; intros ys1 H1; simpl in H1 |- *.
  - injection H1 as <-. exact H2.
  - destruct (f x) as [y|e]; simpl in H1 |- *; [|discriminate].
    destruct (map_m f l1) as [ys|e] eqn:E; simpl in H1; [|discriminate].
    injection H1 as <-. rewrite (IH ys eq_refl). reflexivity.
Qed.



Lemma map_m_err_split {A B} (f : A -> result B) (l : list A) (e : exc) :
  map_m f l = Err e <->
  exists l1 x l2, l = (l1 ++ x :: l2)%list /\
    Forall (fun y => exists b, f y = Ok b) l1 /\ f x = Err e.
Proof.
  induction l as [|a l IH]; simpl.
  - split; [discriminate|]. intros (l1 & x & l2 & H & _). now destruct l1.
  - destruct (f a) as [b|e'] eqn:Ha; simpl.
    + destruct (map_m f l) as [ys|e''] eqn:Hm; simpl.
      * split; [discriminate|]. intros (l1 & x & l2 & Heq & Hf & Hx).
        destruct l1 as [|y l1]; simpl in Heq; injection Heq as -> Heq;
          [congruence|].
        inversion Hf; subst.
        assert (Hl : Ok ys = Err e) by (apply IH; exists l1, x, l2; auto).
        discriminate.
      * split.
        -- intros [= ->]. destruct (proj1 IH eq_refl) as (l1 & x & l2 & -> & Hf & Hx).
           exists (a :: l1)%list, x, l2. split; [reflexivity|].
           split; [constructor; eauto | exact Hx].
        -- intros (l1 & x & l2 & Heq & Hf & Hx).
           destruct l1 as [|y l1]; simpl in Heq; injection Heq as -> Heq;
             [congruence|].
           inversion Hf; subst. apply IH. exists l1, x, l2. auto.
    + split.
      * intros [= ->]. exists [], a, l. auto.
      * intros (l1 & x & l2 & Heq & Hf & Hx).
        destruct l1 as [|y l1]; simpl in Heq; injection Heq as -> Heq;
          [congruence|].
        inversion Hf as [|? ? [b Hb]]; congruence.
Qed.


Lemma result_cases {A} (r : result A) : (exists a, r = Ok a) \/ (exists e, r = Err e).
Proof. destruct r; eauto. Qed.

(** How one list item fails: no ["text"] key, or an integer text too long
    to be converted to a string. *)
Lemma li_of_err (d : dict) (e : exc) :
  li_of d = Err e <->
  (text_of d = None /\ e = KeyError "text") \/
  (exists z, text_of d = Some (PyInt z) /\
             (10 ^ int_max_str_digits <= Z.abs z)%Z /\ e = ValueError).
Proof.
  rewrite li_of_text. destruct (text_of d) as [[z|t]|]; cbn [py_str bind].
  - unfold int_repr.
    destruct (Z.leb_spec (10 ^ int_max_str_digits) (Z.abs z)); cbn [bind].
    + split.
      * intros [= <-]. right. eauto.
      * intros [[? _]|(z' & [= <-] & _ & ->)]; [discriminate|reflexivity].
    + split; [discriminate|].
      intros [[? _]|(z' & [= <-] & Hle & _)]; [discriminate|lia].
  - split; [discriminate|]. intros [[? _]|(z & ? & _)]; discriminate.
  - split.
    + intros [= <-]. auto.
    + intros [[_ ->]|(z & ? & _)]; [reflexivity|discriminate].
Qed.

Lemma li_of_ok (d : dict) : (exists s, li_of d = Ok s) <-> text_renders d.
Proof.
  unfold text_renders. split.
  - intros [s Hs].
    destruct (text_of d) as [v|] eqn:Hd.
    + exists v. split; [reflexivity|]. intros z ->.
      destruct (Z.lt_ge_cases (Z.abs z) (10 ^ int_max_str_digits)) as [Hl|Hg];
        [exact Hl|].
      assert (Herr : li_of d = Err ValueError) by (apply li_of_err; right; eauto).
      congruence.
    + assert (Herr : li_of d = Err (KeyError "text")) by (apply li_of_err; auto).
      congruence.
  - intros (v & Hv & Hz). destruct (result_cases (li_of d)) as [Hok|[e He]];
      [exact Hok|].
    apply li_of_err in He as [[Hn _]|(z & Hzv & Hle & _)]; [congruence|].
    rewrite Hv in Hzv. injection Hzv as ->. specialize (Hz z eq_refl). lia.
Qed.

Lemma devotional_home_err_li (cat : list dict) (e : exc) :
  devotional_home cat = Err e <-> map_m li_of cat = Err e.
Proof.
  unfold devotional_home, html_quotes.
  destruct (map_m li_of cat) as [items|e']; simpl.
  - split; discriminate.
  - split; intros [= ->]; reflexivity.
Qed.



(** Python's [str] on an integer gives its decimal numeral, read back by
    [int] to the same integer (for every decimal int, up to [-0] and the
    empty numeral, which both denote zero). *)
Lemma string_of_int_roundtrip (d : Decimal.int) :
  option_map Z.of_int (NilZero.int_of_string (NilZero.string_of_int d)) =
  Some (Z.of_int d).
Proof.
  destruct (Decimal.int_eq_dec d (Decimal.Pos Decimal.Nil)) as [->|H1];
    [reflexivity|].
  destruct (Decimal.int_eq_dec d (Decimal.Neg Decimal.Nil)) as [->|H2];
    [reflexivity|].
  rewrite NilZero.isi by assumption. reflexivity.
Qed.

(** Counting [<li>] over strings without a ['<'] character. *)
Lemma count_li_no_lt (a b : string) :
  contains "<" a = false ->
  count_occ_str "<li>" (a ++ b) = count_occ_str "<li>" b.
Proof.
  induction a as [|c a IH]; intros H; [reflexivity|].
  cbn [contains] in H. apply orb_false_iff in H as [Hc Ha].
  cbn [String.append count_occ_str]. rewrite (IH Ha).
  cbn [String.prefix] in Hc |- *.
  destruct (ascii_dec "<" c) as [<-|Hne]; [now destruct a | reflexivity].
Qed.

Lemma count_li_fragment (t rest : string) :
  contains "<" t = false ->
  count_occ_str "<li>" (li_fragment t ++ rest) =
  S (count_occ_str "<li>" rest).
Proof.
  intros Ht. unfold li_fragment.
  rewrite !append_assoc_str. simpl.
  rewrite count_li_no_lt by exact Ht.
  replace (String.prefix EmptyString _) with true by (now destruct t).
  reflexivity.
Qed.

Lemma count_li_head (b : string) :
  count_occ_str "<li>" (template_head ++ b) = count_occ_str "<li>" b.
Proof. unfold template_head, dq. rewrite !append_assoc_str. simpl. reflexivity. Qed.

Lemma count_li_items_tail (texts : list string) :
  Forall (fun t => contains "<" t = false) texts ->
  count_occ_str "<li>"
    (String.concat EmptyString (map li_fragment texts) ++ template_tail) =
  length texts.
Proof.
  induction 1 as [|t texts Ht _ IH]; [vm_compute; reflexivity|].
  cbn [map]. rewrite concat_empty_cons, append_assoc_str.
  rewrite count_li_fragment by exact Ht. now rewrite IH.
Qed.

(** *** Extra properties *)

Lemma ok_inj {A} (a b : A) : Ok a = Ok b -> a = b.
Proof. intros H. injection H. auto. Qed.

(** [GET /] raises exactly when some entry cannot be rendered, and the
    exception is the one of the first such entry: [KeyError('text')] when
    it has no ["text"] key, [ValueError] when its text is an integer of more
    than 4300 digits. *)
Theorem devotional_home_error_iff (cat : list dict) (e : exc) :
  devotional_home cat = Err e <->
  exists c1 d c2, cat = (c1 ++ d :: c2)%list /\ Forall text_renders c1 /\
    ((text_of d = None /\ e = KeyError "text") \/
     (exists z, text_of d = Some (PyInt z) /\
                (10 ^ int_max_str_digits <= Z.abs z)%Z /\ e = ValueError)).
Proof.
  rewrite devotional_home_err_li, map_m_err_split.
  split; intros (c1 & d & c2 & Heq & Hf & Hd); exists c1, d, c2;
    (split; [exact Heq|]); split.
  - eapply Forall_impl; [|exact Hf]. intros y Hy. now apply li_of_ok.
  - now apply li_of_err.
  - eapply Forall_impl; [|exact Hf]. intros y Hy. now apply li_of_ok.
  - now apply li_of_err.
Qed.

Lemma devotional_home_error_iff_witness :
  devotional_home (TLC_ENGINEERING ++ [ [("id", PyInt 2)]; [("text", PyInt (10 ^ 4300))] ])%list =
    Err (KeyError "text").
Proof.
  apply devotional_home_error_iff.
  exists TLC_ENGINEERING, [("id", PyInt 2)], [ [("text", PyInt (10 ^ 4300))] ].
  split; [reflexivity|]. split.
  - constructor; [|constructor]. exists (PyStr tlc_text).
    split; [reflexivity | discriminate].
  - left. split; reflexivity.
Defined.

(** [GET /] produces a page exactly when every entry has a ["text"] key
    whose value, if an integer, has at most 4300 digits; the ["id"] key is
    not needed. *)
Theorem devotional_home_ok_iff (cat : list dict) :
  (exists page, devotional_home cat = Ok page) <-> Forall text_renders cat.
Proof.
  split.
  - intros [page Hp]. unfold devotional_home, html_quotes in Hp.
    destruct (map_m li_of cat) as [items|e] eqn:Hm; cbn [bind] in Hp; [|discriminate].
    apply map_m_ok in Hm. clear Hp.
    induction Hm as [|d s cat items Hd _ IH]; constructor; auto.
    apply li_of_ok. eauto.
  - intros Hf.
    destruct (map_m_total li_of cat) as [items Hm].
    { eapply Forall_impl; [|exact Hf]. intros d Hd. now apply li_of_ok. }
    unfold devotional_home, html_quotes. rewrite Hm. cbn [bind]. eauto.
Qed.




(** The page of a concatenation of catalogs holds the list items of the
    first catalog followed by those of the second, between the same fixed
    head and tail. *)
Theorem devotional_home_app (c1 c2 : list dict) (h1 h2 : string) :
  html_quotes c1 = Ok h1 -> html_quotes c2 = Ok h2 ->
  devotional_home (c1 ++ c2)%list = Ok (template_head ++ h1 ++ h2 ++ template_tail).
Proof.
  unfold devotional_home, html_quotes.
  destruct (map_m li_of c1) as [ys1|e] eqn:E1; simpl; [|discriminate].
  destruct (map_m li_of c2) as [ys2|e] eqn:E2; simpl; [|discriminate].
  intros [= <-] [= <-].
  rewrite (map_m_app li_of c1 c2 ys1 ys2 E1 E2). simpl.
  now rewrite concat_empty_app, append_assoc_str.
Qed.

Lemma devotional_home_app_witness :
  devotional_home (hello_catalog ++ TLC_ENGINEERING)%list =
  Ok (template_head ++ "<li>Hello <b>world</b></li>" ++
      li_fragment tlc_text ++ template_tail).
Proof. apply devotional_home_app; reflexivity. Defined.

(** The page length is the length of the fixed template plus, for each
    entry text [t], the length of [t] and the 9 characters of
    [<li></li>]. *)
Theorem devotional_home_length (cat : list dict) (texts : list string) (page : string) :
  map text_of cat = map (fun t => Some (PyStr t)) texts ->
  devotional_home cat = Ok page ->
  String.length page =
    String.length template_head + String.length template_tail +
    list_sum (map (fun t => String.length t + 9) texts).
Proof.
  intros Ht Hp. unfold devotional_home in Hp.
  rewrite (html_quotes_texts cat texts Ht) in Hp. cbn [bind] in Hp.
  apply ok_inj in Hp. subst page.
  rewrite !length_append_str.
  enough (String.length (String.concat EmptyString (map li_fragment texts)) =
          list_sum (map (fun t => String.length t + 9) texts)) by lia.
  clear Ht. induction texts as [|t texts IH]; [reflexivity|].
  cbn [map list_sum]. rewrite concat_empty_cons, length_append_str, IH.
  unfold li_fragment. rewrite !length_append_str. simpl. lia.
Qed.

Lemma devotional_home_length_witness :
  String.length (template_head ++ "<li>Hello <b>world</b></li>" ++ template_tail) =
    String.length template_head + String.length template_tail +
    list_sum (map (fun t => String.length t + 9) ["Hello <b>world</b>"]).
Proof.
  apply (devotional_home_length hello_catalog); reflexivity.
Defined.

(** When no entry text contains ['<'], the page holds exactly one [<li>]
    per catalog entry: the fixed template contributes none. *)
Theorem devotional_home_li_count (cat : list dict) (texts : list string) (page : string) :
  map text_of cat = map (fun t => Some (PyStr t)) texts ->
  Forall (fun t => contains "<" t = false) texts ->
  devotional_home cat = Ok page ->
  count_occ_str "<li>" page = length cat.
Proof.
  intros Ht Hlt Hp. unfold devotional_home in Hp.
  rewrite (html_quotes_texts cat texts Ht) in Hp. cbn [bind] in Hp.
  apply ok_inj in Hp. subst page.
  rewrite count_li_head, count_li_items_tail by exact Hlt.
  apply (f_equal (@length _)) in Ht. rewrite !length_map in Ht. auto.
Qed.

Lemma devotional_home_li_count_witness :
  count_occ_str "<li>" (template_head ++ li_fragment tlc_text ++ template_tail) = 1.
Proof.
  apply (devotional_home_li_count TLC_ENGINEERING [tlc_text]).
  - reflexivity.
  - constructor; [vm_compute; reflexivity | constructor].
  - reflexivity.
Defined.

(** An entry whose ["text"] is an integer [z] is rendered by [str(z)]: if
    [z] has at most 4300 digits the list item holds a decimal numeral that
    reads back as [z]; otherwise formatting raises [ValueError]. *)
Theorem li_of_int_text (d : dict) (z : Z) :
  text_of d = Some (PyInt z) ->
  ((Z.abs z < 10 ^ int_max_str_digits)%Z ->
   exists s, li_of d = Ok ("<li>" ++ s ++ "</li>") /\
     option_map Z.of_int (NilZero.int_of_string s) = Some z) /\
  ((10 ^ int_max_str_digits <= Z.abs z)%Z -> li_of d = Err ValueError).
Proof.
  intros Hz. rewrite li_of_text, Hz. cbn [py_str]. unfold int_repr.
  split; intros Hb.
  - exists (NilZero.string_of_int (Z.to_int z)).
    destruct (Z.leb_spec (10 ^ int_max_str_digits) (Z.abs z)); [lia|].
    split; [reflexivity|].
    rewrite string_of_int_roundtrip. now rewrite DecimalZ.of_to.
  - destruct (Z.leb_spec (10 ^ int_max_str_digits) (Z.abs z)); [reflexivity|lia].
Qed.

Lemma li_of_int_text_witness :
  ((Z.abs (-42) < 10 ^ int_max_str_digits)%Z ->
   exists s, li_of [("text", PyInt (-42))] = Ok ("<li>" ++ s ++ "</li>") /\
     option_map Z.of_int (NilZero.int_of_string s) = Some (-42)%Z) /\
  ((10 ^ int_max_str_digits <= Z.abs (-42))%Z ->
   li_of [("text", PyInt (-42))] = Err ValueError).
Proof. apply li_of_int_text. reflexivity. Defined.
